(** * Validation-failure formatter of the server-common library

    A shallow embedding of
    [smithy-typescript-ssdk-libs/server-common/src/validation/index.ts]
    (the failure records, [generateValidationMessage] and
    [generateValidationSummary]) and of the code generator's test resource
    [test-sensitive-member-pointing-to-map.smithy], with the properties the
    specification states about them. *)

From Stdlib Require Import ZArith Ascii DecimalString.
From stdpp Require Import gmap strings list.

(** ** JavaScript values and their textual form *)

Module Js.

(** How a statement completes: normally with a value, or abruptly by
    throwing.  The only exception the formatter can raise is the [TypeError]
    of a property read on [undefined]. *)
Inductive Error : Type :=
| TypeError.

Inductive Completion (A : Type) : Type :=
| Normal (value : A)
| Throw (error : Error).

Arguments Normal {A} value.
Arguments Throw {A} error.

Definition returns_normally {A : Type} (c : Completion A) : bool :=
  match c with
  | Normal _ => true
  | Throw _ => false
  end.

(** An array length is a non-negative integer below 2^32, so its textual form
    is its decimal numeral. *)
Definition length_toString (n : nat) : string :=
  NilZero.string_of_uint (Nat.to_uint n).

(** [Array.prototype.join]: the pieces separated by [sep]; the empty array
    gives the empty string. *)
Fixpoint join (sep : string) (pieces : list string) : string :=
  match pieces with
  | [] => EmptyString
  | [piece] => piece
  | piece :: rest => piece +:+ sep +:+ join sep rest
  end.

Section Values.

(** The type [number] and [Number.prototype.toString] belong to the
    language, not to the library: they are left abstract here and
    instantiated with the integers below. *)
Variable number : Type.
Variable Number_toString : number -> string.

(** What an [Array<any>] may hold.  [Object] is a plain object, one that
    does not override [toString]. *)
#[warnings="-register-all"]
Inductive Any : Type :=
| Undefined
| Null
| Boolean (b : bool)
| Number (n : number)
| Str (s : string)
| Array (items : list Any)
| Object.

(** The abstract operation ToString; on an array it is
    [Array.prototype.toString], that is [join(",")], in which [undefined]
    and [null] elements contribute the empty string. *)
Fixpoint ToString (v : Any) : string :=
  match v with
  | Undefined => "undefined"
  | Null => "null"
  | Boolean b => if b then "true" else "false"
  | Number n => Number_toString n
  | Str s => s
  | Array items =>
      join ","
        (List.map
           (fun item =>
              match item with
              | Undefined | Null => EmptyString
              | _ => ToString item
              end)
           items)
  | Object => "[object Object]"
  end.

Definition Array_toString (items : list Any) : string :=
  ToString (Array items).

(** [x === undefined] for [x : number | undefined]. *)
Definition is_undefined (x : option number) : bool :=
  match x with
  | Some _ => false
  | None => true
  end.

(** A template-literal hole [${x}] for [x : number | undefined]. *)
Definition interpolate (x : option number) : string :=
  match x with
  | Some n => Number_toString n
  | None => "undefined"
  end.

End Values.

Arguments Undefined {number}.
Arguments Null {number}.
Arguments Boolean {number} b.
Arguments Number {number} n.
Arguments Str {number} s.
Arguments Array {number} items.
Arguments Object {number}.
Arguments ToString {number} Number_toString v.
Arguments Array_toString {number} Number_toString items.
Arguments is_undefined {number} x.
Arguments interpolate {number} Number_toString x.

(** Integral numbers, the instance used for the concrete cases. *)
Definition Z_toString (z : Z) : string :=
  NilZero.string_of_int (Z.to_int z).

End Js.

(** ** The failure records and the two formatters *)

Section Validation.

Variable number : Type.
Variable Number_toString : number -> string.

(** The union [ValidationFailure], one constructor per interface; the tag
    [constraintType] is the constructor.  A [constraintValues] pair holds
    [undefined] as [None]; the TypeScript type excludes the pair with both
    bounds [undefined], an untyped caller can still pass it. *)
Inductive ValidationFailure : Type :=
| EnumValidationFailure
    (memberName : string) (constraintValues : list string) (failureValue : string)
| LengthValidationFailure
    (memberName : string) (constraintValues : option number * option number)
    (failureValue : number)
| PatternValidationFailure
    (memberName : string) (constraintValues : string) (failureValue : string)
| RangeValidationFailure
    (memberName : string) (constraintValues : option number * option number)
    (failureValue : number)
| RequiredValidationFailure (memberName : string)
| UniqueItemsValidationFailure
    (memberName : string) (failureValue : list (Js.Any number)).

Definition memberName (failure : ValidationFailure) : string :=
  match failure with
  | EnumValidationFailure name _ _
  | LengthValidationFailure name _ _
  | PatternValidationFailure name _ _
  | RangeValidationFailure name _ _
  | RequiredValidationFailure name
  | UniqueItemsValidationFailure name _ => name
  end.

Definition constraintType (failure : ValidationFailure) : string :=
  match failure with
  | EnumValidationFailure _ _ _ => "enum"
  | LengthValidationFailure _ _ _ => "length"
  | PatternValidationFailure _ _ _ => "pattern"
  | RangeValidationFailure _ _ _ => "range"
  | RequiredValidationFailure _ => "required"
  | UniqueItemsValidationFailure _ _ => "uniqueItems"
  end.

(** [failure.constraintType === "required" ? "null" : failure.failureValue.toString()] *)
Definition failureValue_text (failure : ValidationFailure) : string :=
  match failure with
  | RequiredValidationFailure _ => "null"
  | EnumValidationFailure _ _ value => value
  | PatternValidationFailure _ _ value => value
  | LengthValidationFailure _ _ value => Number_toString value
  | RangeValidationFailure _ _ value => Number_toString value
  | UniqueItemsValidationFailure _ value => Js.Array_toString Number_toString value
  end.

(** The [switch] of [generateValidationMessage]: the pair (prefix, suffix). *)
Definition prefix_suffix (failure : ValidationFailure) : string * string :=
  match failure with
  | RequiredValidationFailure _ =>
      ("Value", "must not be null")
  | EnumValidationFailure _ values _ =>
      ("Value", "must satisfy enum value set: " +:+ Js.join "," values)
  | LengthValidationFailure _ (min, max) _ =>
      ("Value with length",
       if Js.is_undefined min then
         "must have length less than or equal to "
           +:+ Js.interpolate Number_toString max
       else if Js.is_undefined max then
         "must have length greater than or equal to "
           +:+ Js.interpolate Number_toString min
       else
         "must have length between " +:+ Js.interpolate Number_toString min
           +:+ " and " +:+ Js.interpolate Number_toString max +:+ ", inclusive")
  | PatternValidationFailure _ pattern _ =>
      ("Value", "must satisfy regular expression pattern: " +:+ pattern)
  | RangeValidationFailure _ (min, max) _ =>
      ("Value",
       if Js.is_undefined min then
         "must be less than or equal to " +:+ Js.interpolate Number_toString max
       else if Js.is_undefined max then
         "must be greater than or equal to " +:+ Js.interpolate Number_toString min
       else
         "must be between " +:+ Js.interpolate Number_toString min
           +:+ " and " +:+ Js.interpolate Number_toString max +:+ ", inclusive")
  | UniqueItemsValidationFailure _ _ =>
      ("Value with repeated values", "must have unique values")
  end.

Definition generateValidationMessage (failure : ValidationFailure) : string :=
  let failureValue := failureValue_text failure in
  let '(prefix, suffix) := prefix_suffix failure in
  prefix +:+ " " +:+ failureValue
    +:+ " failed to satisfy constraint: Member " +:+ suffix.

(** [new Set(failures.map((failure) => failure.memberName))] *)
Definition failingMembers (failures : list ValidationFailure) : gset string :=
  list_to_set (List.map memberName failures).

Definition plural (n : nat) : string :=
  if 1 <? n then "s" else EmptyString.

(** The text built before [failures[0]] is read. *)
Definition summary_lead (failures : list ValidationFailure) : string :=
  let message :=
    Js.length_toString (length failures) +:+ " validation error"
      +:+ plural (length failures) +:+ " " in
  let message :=
    if 1 <? length failures
    then message +:+ ("across " +:+ Js.length_toString (size (failingMembers failures))
                        +:+ " ")
                 +:+ ("member" +:+ plural (size (failingMembers failures)) +:+ " ")
    else message in
  message +:+ "detected. ".

(** [failures[0].memberName] reads a property of [undefined] when the array
    is empty, which throws. *)
Definition generateValidationSummary
    (failures : list ValidationFailure) : Js.Completion string :=
  let message := summary_lead failures in
  match failures !! 0 with
  | None => Js.Throw Js.TypeError
  | Some first =>
      Js.Normal
        (message +:+ ("Member '" +:+ memberName first +:+ "' failed: "
                        +:+ generateValidationMessage first +:+ "."))
  end.

End Validation.

Arguments EnumValidationFailure {number} memberName constraintValues failureValue.
Arguments LengthValidationFailure {number} memberName constraintValues failureValue.
Arguments PatternValidationFailure {number} memberName constraintValues failureValue.
Arguments RangeValidationFailure {number} memberName constraintValues failureValue.
Arguments RequiredValidationFailure {number} memberName.
Arguments UniqueItemsValidationFailure {number} memberName failureValue.
Arguments memberName {number} failure.
Arguments constraintType {number} failure.
Arguments failureValue_text {number} Number_toString failure.
Arguments prefix_suffix {number} Number_toString failure.
Arguments generateValidationMessage {number} Number_toString failure.
Arguments failingMembers {number} failures.
Arguments summary_lead {number} failures.
Arguments generateValidationSummary {number} Number_toString failures.

(** ** The code generator's test resource *)

Module Fixture.

Definition LF : string := String "010"%char EmptyString.
Definition DQ : string := String "034"%char EmptyString.

(** The bytes of [test-sensitive-member-pointing-to-map.smithy]; the file
    does not end with a line feed. *)
Definition test_sensitive_member_pointing_to_map : string :=
  "namespace smithy.example" +:+ LF +:+
  LF +:+
  "service Example {" +:+ LF +:+
  "    version: " +:+ DQ +:+ "1.0.0" +:+ DQ +:+ "," +:+ LF +:+
  "    operations: [GetFoo]" +:+ LF +:+
  "}" +:+ LF +:+
  LF +:+
  "operation GetFoo {" +:+ LF +:+
  "    input: GetFooInput" +:+ LF +:+
  "}" +:+ LF +:+
  LF +:+
  "structure GetFooInput {" +:+ LF +:+
  "    @sensitive" +:+ LF +:+
  "    sensitiveFoo: NamesMap" +:+ LF +:+
  "}" +:+ LF +:+
  LF +:+
  "map NamesMap {" +:+ LF +:+
  "    key: String," +:+ LF +:+
  "    value: String" +:+ LF +:+
  "}".

(** The text cut at each line feed. *)
Fixpoint lines_from (current : string) (text : string) : list string :=
  match text with
  | EmptyString => [String.rev current]
  | String c rest =>
      if Ascii.eqb c "010"%char
      then String.rev current :: lines_from EmptyString rest
      else lines_from (String c current) rest
  end.

Definition lines (text : string) : list string :=
  lines_from EmptyString text.

(** A line opens a declaration when it starts in the first column with a
    letter; member lines are indented and a closing brace is no letter. *)
Definition opens_declaration (line : string) : bool :=
  match line with
  | String c _ => (96 <? Ascii.nat_of_ascii c) && (Ascii.nat_of_ascii c <? 123)
  | EmptyString => false
  end.

Definition declarations (text : string) : list string :=
  List.filter opens_declaration (lines text).

(** The indented lines between the line [opening] and the next closing
    brace: the body of one declaration. *)
Fixpoint body_from (inside : bool) (opening : string) (ls : list string) : list string :=
  match ls with
  | [] => []
  | line :: rest =>
      if inside
      then if String.eqb line "}" then [] else line :: body_from true opening rest
      else body_from (String.eqb line opening) opening rest
  end.

Definition body (opening : string) (text : string) : list string :=
  body_from false opening (lines text).

(** The specification's copy of the document (its section 6), line by line. *)
Definition spec_lines : list string :=
  [ "namespace smithy.example";
    EmptyString;
    "service Example {";
    "    version: " +:+ DQ +:+ "1.0.0" +:+ DQ +:+ ",";
    "    operations: [GetFoo]";
    "}";
    EmptyString;
    "operation GetFoo {";
    "    input: GetFooInput";
    "}";
    EmptyString;
    "structure GetFooInput {";
    "    @sensitive";
    "    sensitiveFoo: NamesMap";
    "}";
    EmptyString;
    "map NamesMap {";
    "    key: String,";
    "    value: String";
    "}" ].

Definition spec_text : string := Js.join LF spec_lines.

End Fixture.

(** ** Facts about strings and sets used below *)

Lemma append_assoc (s t u : string) : (s +:+ t) +:+ u = s +:+ (t +:+ u).
Proof.
  induction s as [|c s IH]; [reflexivity |].
  change (String c ((s +:+ t) +:+ u) = String c (s +:+ t +:+ u)).
  now rewrite IH.
Qed.

Lemma append_empty_r (s : string) : s +:+ EmptyString = s.
Proof.
  induction s as [|c s IH]; [reflexivity |].
  change (String c (s +:+ EmptyString) = String c s).
  now rewrite IH.
Qed.

(** The size of the set built from a list is the number of distinct values
    in the list. *)
Lemma size_list_to_set_distinct (names : list string) :
  size (list_to_set names : gset string) = length (remove_dups names).
Proof.
  assert (Hsame : (list_to_set names : gset string)
                  = list_to_set (remove_dups names)).
  { apply set_eq. intros name.
    now rewrite !elem_of_list_to_set, elem_of_remove_dups. }
  rewrite Hsame. apply size_list_to_set, NoDup_remove_dups.
Qed.

(** ** Single-failure messages *)

Section MessageProperties.

Variable number : Type.
Variable Number_toString : number -> string.

(** C3.  Whatever the member name, the message of a Required failure is the
    fixed sentence in which the failing value is written [null]. *)
Theorem generateValidationMessage_required (name : string) :
  generateValidationMessage Number_toString (RequiredValidationFailure name)
  = "Value null failed to satisfy constraint: Member must not be null".
Proof. reflexivity. Qed.

(** C4.  A Length failure has prefix [Value with length]; its suffix says
    [between min and max, inclusive] when both bounds are present, [less than
    or equal to max] when only the maximum is, and [greater than or equal to
    min] when only the minimum is; the message is prefix, failing length and
    suffix put into the fixed sentence. *)
Theorem generateValidationMessage_length (name : string) (min max value : number) :
  (prefix_suffix Number_toString (LengthValidationFailure name (Some min, Some max) value)
   = ("Value with length",
      "must have length between " +:+ Number_toString min +:+ " and "
        +:+ Number_toString max +:+ ", inclusive")
   /\ generateValidationMessage Number_toString (LengthValidationFailure name (Some min, Some max) value)
      = "Value with length " +:+ Number_toString value
          +:+ " failed to satisfy constraint: Member "
          +:+ "must have length between " +:+ Number_toString min +:+ " and "
          +:+ Number_toString max +:+ ", inclusive")
  /\ (prefix_suffix Number_toString (LengthValidationFailure name (None, Some max) value)
      = ("Value with length",
         "must have length less than or equal to " +:+ Number_toString max)
      /\ generateValidationMessage Number_toString (LengthValidationFailure name (None, Some max) value)
         = "Value with length " +:+ Number_toString value
             +:+ " failed to satisfy constraint: Member "
             +:+ "must have length less than or equal to " +:+ Number_toString max)
  /\ (prefix_suffix Number_toString (LengthValidationFailure name (Some min, None) value)
      = ("Value with length",
         "must have length greater than or equal to " +:+ Number_toString min)
      /\ generateValidationMessage Number_toString (LengthValidationFailure name (Some min, None) value)
         = "Value with length " +:+ Number_toString value
             +:+ " failed to satisfy constraint: Member "
             +:+ "must have length greater than or equal to " +:+ Number_toString min).
Proof. repeat split. Qed.

(** C5.  A Range failure has prefix [Value]; its suffix says [between min and
    max, inclusive] when both bounds are present, [less than or equal to max]
    when only the maximum is, and [greater than or equal to min] when only the
    minimum is. *)
Theorem generateValidationMessage_range (name : string) (min max value : number) :
  (prefix_suffix Number_toString (RangeValidationFailure name (Some min, Some max) value)
   = ("Value",
      "must be between " +:+ Number_toString min +:+ " and "
        +:+ Number_toString max +:+ ", inclusive")
   /\ generateValidationMessage Number_toString (RangeValidationFailure name (Some min, Some max) value)
      = "Value " +:+ Number_toString value
          +:+ " failed to satisfy constraint: Member "
          +:+ "must be between " +:+ Number_toString min +:+ " and "
          +:+ Number_toString max +:+ ", inclusive")
  /\ (prefix_suffix Number_toString (RangeValidationFailure name (None, Some max) value)
      = ("Value", "must be less than or equal to " +:+ Number_toString max)
      /\ generateValidationMessage Number_toString (RangeValidationFailure name (None, Some max) value)
         = "Value " +:+ Number_toString value
             +:+ " failed to satisfy constraint: Member "
             +:+ "must be less than or equal to " +:+ Number_toString max)
  /\ (prefix_suffix Number_toString (RangeValidationFailure name (Some min, None) value)
      = ("Value", "must be greater than or equal to " +:+ Number_toString min)
      /\ generateValidationMessage Number_toString (RangeValidationFailure name (Some min, None) value)
         = "Value " +:+ Number_toString value
             +:+ " failed to satisfy constraint: Member "
             +:+ "must be greater than or equal to " +:+ Number_toString min).
Proof. repeat split. Qed.

(** C6.  The message of an Enum failure names the supplied value and lists
    the allowed values joined by commas, without brackets; for member
    [color], allowed values red, green, blue and supplied value purple it is
    the sentence of the specification. *)
Theorem generateValidationMessage_enum :
  (forall (name : string) (allowed : list string) (value : string),
      generateValidationMessage Number_toString (EnumValidationFailure name allowed value)
      = "Value " +:+ value
          +:+ " failed to satisfy constraint: Member must satisfy enum value set: "
          +:+ Js.join "," allowed)
  /\ generateValidationMessage Number_toString (EnumValidationFailure "color" ["red"; "green"; "blue"] "purple")
     = "Value purple failed to satisfy constraint: Member must satisfy enum value set: red,green,blue".
Proof. split; reflexivity. Qed.

(** C10.  When the minimum of a Length or Range failure is absent, the suffix
    is the [less than or equal to] one whatever the maximum is; with both
    bounds absent the message is still produced, the maximum written
    [undefined]. *)
Theorem generateValidationMessage_min_absent
    (name : string) (max : option number) (value : number) :
  (prefix_suffix Number_toString (LengthValidationFailure name (None, max) value)
   = ("Value with length",
      "must have length less than or equal to " +:+ Js.interpolate Number_toString max)
   /\ prefix_suffix Number_toString (RangeValidationFailure name (None, max) value)
      = ("Value",
         "must be less than or equal to " +:+ Js.interpolate Number_toString max))
  /\ (generateValidationMessage Number_toString (LengthValidationFailure name (None, None) value)
      = "Value with length " +:+ Number_toString value
          +:+ " failed to satisfy constraint: Member must have length less than or equal to undefined"
      /\ generateValidationMessage Number_toString (RangeValidationFailure name (None, None) value)
         = "Value " +:+ Number_toString value
             +:+ " failed to satisfy constraint: Member must be less than or equal to undefined").
Proof. repeat split. Qed.

End MessageProperties.

(** The cases of the specification's test list, on integers. *)
Example generateValidationMessage_length_cases :
  generateValidationMessage Js.Z_toString
    (LengthValidationFailure "name" (Some 2%Z, Some 10%Z) 1%Z)
  = "Value with length 1 failed to satisfy constraint: Member must have length between 2 and 10, inclusive"
  /\ generateValidationMessage Js.Z_toString
       (LengthValidationFailure "name" (None, Some 10%Z) 11%Z)
     = "Value with length 11 failed to satisfy constraint: Member must have length less than or equal to 10"
  /\ generateValidationMessage Js.Z_toString
       (LengthValidationFailure "name" (Some 2%Z, None) 1%Z)
     = "Value with length 1 failed to satisfy constraint: Member must have length greater than or equal to 2".
Proof. repeat split. Qed.

Example generateValidationMessage_range_cases :
  generateValidationMessage Js.Z_toString
    (RangeValidationFailure "age" (Some 2%Z, Some 10%Z) (-1)%Z)
  = "Value -1 failed to satisfy constraint: Member must be between 2 and 10, inclusive"
  /\ generateValidationMessage Js.Z_toString
       (RangeValidationFailure "age" (None, Some 10%Z) 11%Z)
     = "Value 11 failed to satisfy constraint: Member must be less than or equal to 10"
  /\ generateValidationMessage Js.Z_toString
       (RangeValidationFailure "age" (Some 2%Z, None) 1%Z)
     = "Value 1 failed to satisfy constraint: Member must be greater than or equal to 2".
Proof. repeat split. Qed.

Example generateValidationMessage_pattern_case :
  generateValidationMessage Js.Z_toString
    (PatternValidationFailure "name" "^[a-z]+$" "AB12")
  = "Value AB12 failed to satisfy constraint: Member must satisfy regular expression pattern: ^[a-z]+$".
Proof. reflexivity. Qed.

(** Inside a joined array, [null] and [undefined] leave an empty piece and a
    nested array is joined in turn. *)
Example Array_toString_nested :
  Js.Array_toString Js.Z_toString
    [ Js.Null; Js.Array [Js.Number 1%Z; Js.Undefined; Js.Str "x"]; Js.Object;
      Js.Boolean true ]
  = ",1,,x,[object Object],true".
Proof. reflexivity. Qed.

(** C7 (as amended).  The message of a UniqueItems failure has the prefix
    [Value with repeated values] followed by the array in its comma-joined
    form, repeats included; for the array 1, 2, 2, 3 it is
    [Value with repeated values 1,2,2,3 failed to satisfy constraint: Member
    must have unique values]. *)
Theorem generateValidationMessage_uniqueItems :
  (forall (number : Type) (Number_toString : number -> string)
          (name : string) (items : list (Js.Any number)),
      generateValidationMessage Number_toString (UniqueItemsValidationFailure name items)
      = "Value with repeated values " +:+ Js.Array_toString Number_toString items
          +:+ " failed to satisfy constraint: Member must have unique values")
  /\ generateValidationMessage Js.Z_toString
       (UniqueItemsValidationFailure "items"
          [Js.Number 1%Z; Js.Number 2%Z; Js.Number 2%Z; Js.Number 3%Z])
     = "Value with repeated values 1,2,2,3 failed to satisfy constraint: Member must have unique values".
Proof. split; reflexivity. Qed.

(** C7 as the specification words its example: the message for the array
    1, 2, 2, 3 is not the sentence that starts [Value 1,2,2,3]. *)
Lemma generateValidationMessage_uniqueItems_example_fails :
  generateValidationMessage Js.Z_toString
    (UniqueItemsValidationFailure "items"
       [Js.Number 1%Z; Js.Number 2%Z; Js.Number 2%Z; Js.Number 3%Z])
  <> "Value 1,2,2,3 failed to satisfy constraint: Member must have unique values".
Proof. vm_compute. discriminate. Qed.

(** ** Summaries *)

Section SummaryProperties.

Variable number : Type.
Variable Number_toString : number -> string.

(** The leading clause in terms of the two counts. *)
Lemma summary_lead_counts (failures : list (ValidationFailure number)) :
  let count := length failures in
  let distinctMembers := length (remove_dups (List.map memberName failures)) in
  summary_lead failures
  = Js.length_toString count +:+ " validation error"
      +:+ (if 1 <? count then "s" else EmptyString) +:+ " "
      +:+ (if 1 <? count
           then "across " +:+ Js.length_toString distinctMembers +:+ " member"
                  +:+ (if 1 <? distinctMembers then "s" else EmptyString) +:+ " "
           else EmptyString)
      +:+ "detected. ".
Proof.
  intros count distinctMembers.
  unfold summary_lead, plural, failingMembers.
  rewrite size_list_to_set_distinct.
  fold count distinctMembers.
  destruct (1 <? count); repeat rewrite append_assoc; reflexivity.
Qed.

Lemma generateValidationSummary_nonempty
    (failures : list (ValidationFailure number)) (first : ValidationFailure number)
    (Hfirst : failures !! 0 = Some first) :
  generateValidationSummary Number_toString failures
  = Js.Normal
      (summary_lead failures
         +:+ "Member '" +:+ memberName first +:+ "' failed: "
         +:+ generateValidationMessage Number_toString first +:+ ".").
Proof.
  unfold generateValidationSummary. now rewrite Hfirst.
Qed.

(** C1.  For a sequence with a first element, the summary is the count with
    [validation error], an [s] exactly when the count exceeds one, then, only
    when the count exceeds one, [across] the number of distinct member names
    with [member] and an [s] exactly when that number exceeds one, then
    [detected.] and the first failure's member name and message.  One failure
    on member [bar] gives the sentence without the [across] clause; three
    failures on members a, a, b give [3 validation errors across 2 members
    detected.] followed by the first failure's detail. *)
Theorem generateValidationSummary_text
    (failures : list (ValidationFailure number)) (first : ValidationFailure number)
    (Hfirst : failures !! 0 = Some first) :
  let count := length failures in
  let distinctMembers := length (remove_dups (List.map memberName failures)) in
  let detail := generateValidationMessage Number_toString first in
  generateValidationSummary Number_toString failures
  = Js.Normal
      (Js.length_toString count +:+ " validation error"
         +:+ (if 1 <? count then "s" else EmptyString) +:+ " "
         +:+ (if 1 <? count
              then "across " +:+ Js.length_toString distinctMembers +:+ " member"
                     +:+ (if 1 <? distinctMembers then "s" else EmptyString) +:+ " "
              else EmptyString)
         +:+ "detected. "
         +:+ "Member '" +:+ memberName first +:+ "' failed: " +:+ detail +:+ ".")
  /\ (count = 1 -> memberName first = "bar" ->
      generateValidationSummary Number_toString failures
      = Js.Normal
          ("1 validation error detected. Member 'bar' failed: " +:+ detail +:+ "."))
  /\ (forall second third : ValidationFailure number,
         failures = [first; second; third] ->
         memberName first = "a" -> memberName second = "a" -> memberName third = "b" ->
         generateValidationSummary Number_toString failures
         = Js.Normal
             ("3 validation errors across 2 members detected. "
                +:+ "Member 'a' failed: " +:+ detail +:+ ".")).
Proof.
  intros count distinctMembers detail.
  rewrite (generateValidationSummary_nonempty failures first Hfirst).
  rewrite summary_lead_counts. fold count distinctMembers detail.
  split; [| split].
  - f_equal. repeat rewrite append_assoc. reflexivity.
  - intros Hcount Hname. rewrite Hcount, Hname. reflexivity.
  - intros second third Hfailures Ha Ha' Hb.
    subst count distinctMembers. rewrite Hfailures. cbn [List.map length].
    rewrite Ha, Ha', Hb. reflexivity.
Qed.

(** C2.  Adding failures anywhere after the first leaves the final clause
    as it was, the first failure's member name and message, while the leading
    clause is the one for the length and the distinct member names of the
    whole extended sequence. *)
Theorem generateValidationSummary_appended
    (first : ValidationFailure number)
    (before extra after : list (ValidationFailure number)) :
  let original := first :: before ++ after in
  let extended := first :: before ++ extra ++ after in
  let final :=
    "Member '" +:+ memberName first +:+ "' failed: "
      +:+ generateValidationMessage Number_toString first +:+ "." in
  let count := S (length before + length extra + length after) in
  let distinctMembers := length (remove_dups (List.map memberName extended)) in
  generateValidationSummary Number_toString original
  = Js.Normal (summary_lead original +:+ final)
  /\ generateValidationSummary Number_toString extended
     = Js.Normal (summary_lead extended +:+ final)
  /\ summary_lead extended
     = Js.length_toString count +:+ " validation error"
         +:+ (if 1 <? count then "s" else EmptyString) +:+ " "
         +:+ (if 1 <? count
              then "across " +:+ Js.length_toString distinctMembers +:+ " member"
                     +:+ (if 1 <? distinctMembers then "s" else EmptyString) +:+ " "
              else EmptyString)
         +:+ "detected. ".
Proof.
  intros original extended final count distinctMembers. split; [| split].
  - now apply generateValidationSummary_nonempty.
  - now apply generateValidationSummary_nonempty.
  - rewrite summary_lead_counts. subst extended count.
    cbn [length]. rewrite !length_app, Nat.add_assoc. reflexivity.
Qed.

(** C8.  On the empty sequence the read of the first element's member name
    throws, so no summary is returned; a summary is returned exactly for the
    non-empty sequences. *)
Theorem generateValidationSummary_empty :
  generateValidationSummary Number_toString [] = Js.Throw Js.TypeError
  /\ forall failures : list (ValidationFailure number),
       Js.returns_normally (generateValidationSummary Number_toString failures) = true
       <-> failures <> [].
Proof.
  split; [reflexivity |].
  intros [|first rest]; split; easy.
Qed.

End SummaryProperties.

(** The summary of three failures on members a, a, b, and of one failure on
    member bar. *)
Lemma generateValidationSummary_text_witness :
  generateValidationSummary Js.Z_toString
    [ RequiredValidationFailure "a";
      LengthValidationFailure "a" (Some 2%Z, Some 10%Z) 1%Z;
      EnumValidationFailure "b" ["red"; "green"; "blue"] "purple" ]
  = Js.Normal
      "3 validation errors across 2 members detected. Member 'a' failed: Value null failed to satisfy constraint: Member must not be null."
  /\ generateValidationSummary Js.Z_toString
       [ RangeValidationFailure "bar" (None, Some 10%Z) 11%Z ]
     = Js.Normal
         "1 validation error detected. Member 'bar' failed: Value 11 failed to satisfy constraint: Member must be less than or equal to 10.".
Proof.
  split.
  - exact (proj2 (proj2
             (generateValidationSummary_text Z Js.Z_toString
                [ RequiredValidationFailure "a";
                  LengthValidationFailure "a" (Some 2%Z, Some 10%Z) 1%Z;
                  EnumValidationFailure "b" ["red"; "green"; "blue"] "purple" ]
                (RequiredValidationFailure "a") eq_refl))
             _ _ eq_refl eq_refl eq_refl eq_refl).
  - exact (proj1 (proj2
             (generateValidationSummary_text Z Js.Z_toString
                [ RangeValidationFailure "bar" (None, Some 10%Z) 11%Z ]
                (RangeValidationFailure "bar" (None, Some 10%Z) 11%Z) eq_refl))
             eq_refl eq_refl).
Defined.

(** The same first failure alone, then followed by one and by two more: the
    leading clause changes, the final clause does not. *)
Example generateValidationSummary_growing :
  generateValidationSummary Js.Z_toString
    [ RequiredValidationFailure "a" ]
  = Js.Normal
      "1 validation error detected. Member 'a' failed: Value null failed to satisfy constraint: Member must not be null."
  /\ generateValidationSummary Js.Z_toString
       [ RequiredValidationFailure "a";
         RangeValidationFailure "a" (Some 0%Z, None) (-1)%Z ]
     = Js.Normal
         "2 validation errors across 1 member detected. Member 'a' failed: Value null failed to satisfy constraint: Member must not be null."
  /\ generateValidationSummary Js.Z_toString
       [ RequiredValidationFailure "a";
         PatternValidationFailure "b" "^[a-z]+$" "AB12";
         RangeValidationFailure "a" (Some 0%Z, None) (-1)%Z ]
     = Js.Normal
         "3 validation errors across 2 members detected. Member 'a' failed: Value null failed to satisfy constraint: Member must not be null.".
Proof. repeat split; vm_compute; reflexivity. Qed.

(** ** The test resource *)

(** C9.  The resource is, byte for byte, the document of the specification:
    the namespace [smithy.example], the service [Example] with version 1.0.0
    and the operation [GetFoo], the operation [GetFoo] with input
    [GetFooInput], the structure [GetFooInput] with the single member
    [sensitiveFoo] marked sensitive and typed [NamesMap], and the map
    [NamesMap] from String to String; it declares nothing else. *)
Theorem fixture_text :
  Fixture.test_sensitive_member_pointing_to_map = Fixture.spec_text
  /\ Fixture.lines Fixture.test_sensitive_member_pointing_to_map = Fixture.spec_lines
  /\ Fixture.declarations Fixture.test_sensitive_member_pointing_to_map
     = [ "namespace smithy.example"; "service Example {"; "operation GetFoo {";
         "structure GetFooInput {"; "map NamesMap {" ]
  /\ Fixture.body "service Example {" Fixture.test_sensitive_member_pointing_to_map
     = [ "    version: " +:+ Fixture.DQ +:+ "1.0.0" +:+ Fixture.DQ +:+ ",";
         "    operations: [GetFoo]" ]
  /\ Fixture.body "operation GetFoo {" Fixture.test_sensitive_member_pointing_to_map
     = [ "    input: GetFooInput" ]
  /\ Fixture.body "structure GetFooInput {" Fixture.test_sensitive_member_pointing_to_map
     = [ "    @sensitive"; "    sensitiveFoo: NamesMap" ]
  /\ Fixture.body "map NamesMap {" Fixture.test_sensitive_member_pointing_to_map
     = [ "    key: String,"; "    value: String" ].
Proof. repeat split; vm_compute; reflexivity. Qed.

(** ** Further properties of the message formatter *)

Lemma length_remove_dups_le (names : list string) :
  length (remove_dups names) <= length names.
Proof.
  induction names as [|name names IH]; simpl; [lia |].
  case_decide; simpl; lia.
Qed.

Section FurtherMessageProperties.

Variable number : Type.
Variable Number_toString : number -> string.

(** The message of a Pattern failure gives the supplied value and the
    pattern source, both verbatim. *)
Theorem generateValidationMessage_pattern (name pattern value : string) :
  generateValidationMessage Number_toString (PatternValidationFailure name pattern value)
  = "Value " +:+ value
      +:+ " failed to satisfy constraint: Member must satisfy regular expression pattern: "
      +:+ pattern.
Proof. reflexivity. Qed.

(** Every message, whatever the kind of failure and whichever bounds are
    present, is [Value], one of three qualifiers, the failing value, the
    words [failed to satisfy constraint: Member must] and a requirement. *)
Theorem generateValidationMessage_shape (failure : ValidationFailure number) :
  exists qualifier requirement : string,
    qualifier ∈ [EmptyString; " with length"; " with repeated values"]
    /\ generateValidationMessage Number_toString failure
       = "Value" +:+ qualifier +:+ " " +:+ failureValue_text Number_toString failure
           +:+ " failed to satisfy constraint: Member must " +:+ requirement.
Proof.
  destruct failure as
    [name allowed value | name [[min|] [max|]] value | name pattern value
    | name [[min|] [max|]] value | name | name items];
    eexists; eexists; (split; [| reflexivity]); set_solver.
Qed.

(** The message does not depend on the member name: failures of the same
    kind with the same constraint values and failing value have the same
    message under any two names. *)
Theorem generateValidationMessage_ignores_memberName (name name' : string) :
  (forall allowed value,
      generateValidationMessage Number_toString (EnumValidationFailure name allowed value)
      = generateValidationMessage Number_toString (EnumValidationFailure name' allowed value))
  /\ (forall bounds value,
         generateValidationMessage Number_toString (LengthValidationFailure name bounds value)
         = generateValidationMessage Number_toString (LengthValidationFailure name' bounds value))
  /\ (forall pattern value,
         generateValidationMessage Number_toString (PatternValidationFailure name pattern value)
         = generateValidationMessage Number_toString (PatternValidationFailure name' pattern value))
  /\ (forall bounds value,
         generateValidationMessage Number_toString (RangeValidationFailure name bounds value)
         = generateValidationMessage Number_toString (RangeValidationFailure name' bounds value))
  /\ generateValidationMessage Number_toString (RequiredValidationFailure name)
     = generateValidationMessage Number_toString (RequiredValidationFailure name')
  /\ (forall items,
         generateValidationMessage Number_toString (UniqueItemsValidationFailure name items)
         = generateValidationMessage Number_toString (UniqueItemsValidationFailure name' items)).
Proof. repeat split. Qed.


(** An array of numbers, or of strings, is written as the texts of its
    elements in the supplied order, every one of them, separated by commas:
    the message of a UniqueItems failure keeps the repeated items. *)
Theorem generateValidationMessage_uniqueItems_flat (name : string) :
  (forall values : list number,
      generateValidationMessage Number_toString
        (UniqueItemsValidationFailure name (List.map Js.Number values))
      = "Value with repeated values "
          +:+ Js.join "," (List.map Number_toString values)
          +:+ " failed to satisfy constraint: Member must have unique values")
  /\ (forall values : list string,
         generateValidationMessage Number_toString
           (UniqueItemsValidationFailure name (List.map Js.Str values))
         = "Value with repeated values " +:+ Js.join "," values
             +:+ " failed to satisfy constraint: Member must have unique values").
Proof.
  split; intros values.
  - change (generateValidationMessage Number_toString
              (UniqueItemsValidationFailure name (List.map Js.Number values)))
      with ("Value with repeated values "
              +:+ Js.join ","
                    (List.map
                       (fun item : Js.Any number =>
                          match item with
                          | Js.Undefined | Js.Null => EmptyString
                          | _ => Js.ToString Number_toString item
                          end)
                       (List.map Js.Number values))
              +:+ " failed to satisfy constraint: Member must have unique values").
    now rewrite List.map_map.
  - change (generateValidationMessage Number_toString
              (UniqueItemsValidationFailure name (List.map Js.Str values)))
      with ("Value with repeated values "
              +:+ Js.join ","
                    (List.map
                       (fun item : Js.Any number =>
                          match item with
                          | Js.Undefined | Js.Null => EmptyString
                          | _ => Js.ToString Number_toString item
                          end)
                       (List.map Js.Str values))
              +:+ " failed to satisfy constraint: Member must have unique values").
    rewrite List.map_map. cbn [Js.ToString]. now rewrite List.map_id.
Qed.

End FurtherMessageProperties.

(** ** Further properties of the summary *)

Section FurtherSummaryProperties.

Variable number : Type.
Variable Number_toString : number -> string.

(** The leading clause looks at the failures only through their number and
    the set of their member names. *)
Lemma summary_lead_same (failures failures' : list (ValidationFailure number)) :
  length failures = length failures' ->
  failingMembers failures = failingMembers failures' ->
  summary_lead failures = summary_lead failures'.
Proof.
  intros Hlength Hmembers. unfold summary_lead.
  now rewrite Hlength, Hmembers.
Qed.

Lemma generateValidationSummary_same_lead
    (first : ValidationFailure number) (rest rest' : list (ValidationFailure number)) :
  length rest = length rest' ->
  failingMembers (first :: rest) = failingMembers (first :: rest') ->
  generateValidationSummary Number_toString (first :: rest)
  = generateValidationSummary Number_toString (first :: rest').
Proof.
  intros Hlength Hmembers.
  rewrite (generateValidationSummary_nonempty _ _ (first :: rest) first eq_refl).
  rewrite (generateValidationSummary_nonempty _ _ (first :: rest') first eq_refl).
  rewrite (summary_lead_same (first :: rest) (first :: rest')); [reflexivity | | exact Hmembers].
  cbn [length]. now rewrite Hlength.
Qed.

Lemma failingMembers_cons
    (first : ValidationFailure number) (rest : list (ValidationFailure number)) :
  failingMembers (first :: rest) = {[memberName first]} ∪ failingMembers rest.
Proof. reflexivity. Qed.

Lemma failingMembers_same_name
    (first : ValidationFailure number) (rest : list (ValidationFailure number)) :
  Forall (fun failure => memberName failure = memberName first) rest ->
  failingMembers (first :: rest) = {[memberName first]}.
Proof.
  induction 1 as [|failure rest Hname _ IH].
  - rewrite failingMembers_cons. apply (right_id_L ∅ (∪)).
  - rewrite failingMembers_cons in IH |- *.
    rewrite (failingMembers_cons failure rest), Hname, IH.
    apply (idemp_L (∪)).
Qed.

(** The order of the failures after the first does not matter: the summary
    is the same for any rearrangement of them. *)
Theorem generateValidationSummary_permuted_tail
    (first : ValidationFailure number) (rest rest' : list (ValidationFailure number))
    (Hperm : Permutation rest rest') :
  generateValidationSummary Number_toString (first :: rest)
  = generateValidationSummary Number_toString (first :: rest').
Proof.
  apply generateValidationSummary_same_lead.
  - now apply Permutation_length.
  - unfold failingMembers. apply list_to_set_perm_L.
    now apply Permutation_map, perm_skip.
Qed.

(** Of the failures after the first the summary uses the member names only:
    replacing them by failures of any kind on the same members, position by
    position, leaves the summary as it was. *)
Theorem generateValidationSummary_tail_names
    (first : ValidationFailure number) (rest rest' : list (ValidationFailure number))
    (Hnames : List.map memberName rest = List.map memberName rest') :
  generateValidationSummary Number_toString (first :: rest)
  = generateValidationSummary Number_toString (first :: rest').
Proof.
  apply generateValidationSummary_same_lead.
  - rewrite <- (List.length_map memberName rest), Hnames. apply List.length_map.
  - unfold failingMembers. cbn [List.map]. now rewrite Hnames.
Qed.

(** For a non-empty sequence the number of members that the summary counts
    is at least one and at most the number of failures. *)
Theorem failingMembers_size_bounds
    (failures : list (ValidationFailure number)) (Hnonempty : failures <> []) :
  1 <= size (failingMembers failures) <= length failures.
Proof.
  unfold failingMembers. split.
  - destruct failures as [|first rest]; [congruence |].
    cbn [List.map]. rewrite list_to_set_cons, size_union_alt, size_singleton. lia.
  - rewrite size_list_to_set_distinct.
    rewrite <- (List.length_map memberName failures).
    apply length_remove_dups_le.
Qed.

(** Several failures on one and the same member: the summary counts them
    all and says [across 1 member], in the singular. *)
Theorem generateValidationSummary_one_member
    (first : ValidationFailure number) (rest : list (ValidationFailure number))
    (Hseveral : rest <> [])
    (Hsame : Forall (fun failure => memberName failure = memberName first) rest) :
  generateValidationSummary Number_toString (first :: rest)
  = Js.Normal
      (Js.length_toString (S (length rest))
         +:+ " validation errors across 1 member detected. "
         +:+ "Member '" +:+ memberName first +:+ "' failed: "
         +:+ generateValidationMessage Number_toString first +:+ ".").
Proof.
  rewrite (generateValidationSummary_nonempty _ _ (first :: rest) first eq_refl).
  f_equal. unfold summary_lead.
  rewrite (failingMembers_same_name first rest Hsame), size_singleton.
  destruct rest as [|second rest]; [congruence |].
  cbn [length Nat.ltb Nat.leb plural]. repeat rewrite append_assoc. reflexivity.
Qed.

(** Several failures on pairwise different members: the summary gives the
    number of failures also as the number of members, in the plural. *)
Theorem generateValidationSummary_distinct_members
    (first : ValidationFailure number) (rest : list (ValidationFailure number))
    (Hseveral : rest <> [])
    (Hdistinct : NoDup (List.map memberName (first :: rest))) :
  generateValidationSummary Number_toString (first :: rest)
  = Js.Normal
      (Js.length_toString (S (length rest)) +:+ " validation errors across "
         +:+ Js.length_toString (S (length rest)) +:+ " members detected. "
         +:+ "Member '" +:+ memberName first +:+ "' failed: "
         +:+ generateValidationMessage Number_toString first +:+ ".").
Proof.
  rewrite (generateValidationSummary_nonempty _ _ (first :: rest) first eq_refl).
  f_equal. unfold summary_lead, failingMembers.
  rewrite (size_list_to_set _ Hdistinct), List.length_map.
  destruct rest as [|second rest]; [congruence |].
  cbn [length Nat.ltb Nat.leb plural]. repeat rewrite append_assoc. reflexivity.
Qed.

End FurtherSummaryProperties.

(** Concrete instances, on integers. *)

Lemma generateValidationSummary_permuted_tail_witness :
  generateValidationSummary Js.Z_toString
    [ RequiredValidationFailure "a";
      PatternValidationFailure "b" "^[a-z]+$" "AB12";
      RangeValidationFailure "c" (Some 0%Z, None) (-1)%Z ]
  = generateValidationSummary Js.Z_toString
      [ RequiredValidationFailure "a";
        RangeValidationFailure "c" (Some 0%Z, None) (-1)%Z;
        PatternValidationFailure "b" "^[a-z]+$" "AB12" ].
Proof.
  apply (generateValidationSummary_permuted_tail Z Js.Z_toString).
  apply perm_swap.
Defined.

Lemma generateValidationSummary_tail_names_witness :
  generateValidationSummary Js.Z_toString
    [ RequiredValidationFailure "a";
      PatternValidationFailure "b" "^[a-z]+$" "AB12" ]
  = generateValidationSummary Js.Z_toString
      [ RequiredValidationFailure "a";
        LengthValidationFailure "b" (Some 2%Z, Some 10%Z) 1%Z ].
Proof.
  apply (generateValidationSummary_tail_names Z Js.Z_toString).
  reflexivity.
Defined.

Lemma failingMembers_size_bounds_witness :
  1 <= size (failingMembers
               [ RequiredValidationFailure (number := Z) "a";
                 RequiredValidationFailure "a";
                 RequiredValidationFailure "b" ]) <= 3.
Proof.
  apply (failingMembers_size_bounds Z
           [ RequiredValidationFailure "a"; RequiredValidationFailure "a";
             RequiredValidationFailure "b" ]).
  discriminate.
Defined.

Lemma generateValidationSummary_one_member_witness :
  generateValidationSummary Js.Z_toString
    [ RequiredValidationFailure "a";
      LengthValidationFailure "a" (Some 2%Z, Some 10%Z) 1%Z;
      PatternValidationFailure "a" "^[a-z]+$" "AB12" ]
  = Js.Normal
      "3 validation errors across 1 member detected. Member 'a' failed: Value null failed to satisfy constraint: Member must not be null.".
Proof.
  apply (generateValidationSummary_one_member Z Js.Z_toString
           (RequiredValidationFailure "a")
           [ LengthValidationFailure "a" (Some 2%Z, Some 10%Z) 1%Z;
             PatternValidationFailure "a" "^[a-z]+$" "AB12" ]).
  - discriminate.
  - repeat constructor.
Defined.

Lemma generateValidationSummary_distinct_members_witness :
  generateValidationSummary Js.Z_toString
    [ RequiredValidationFailure "a";
      LengthValidationFailure "b" (Some 2%Z, Some 10%Z) 1%Z;
      PatternValidationFailure "c" "^[a-z]+$" "AB12" ]
  = Js.Normal
      "3 validation errors across 3 members detected. Member 'a' failed: Value null failed to satisfy constraint: Member must not be null.".
Proof.
  apply (generateValidationSummary_distinct_members Z Js.Z_toString
           (RequiredValidationFailure "a")
           [ LengthValidationFailure "b" (Some 2%Z, Some 10%Z) 1%Z;
             PatternValidationFailure "c" "^[a-z]+$" "AB12" ]).
  - discriminate.
  - apply (bool_decide_unpack _). vm_compute. exact I.
Defined.
